(** * Status servers of tf-rosa: a shallow embedding of the two Flask apps

    The repository ships two near-identical Flask applications,
    [demo/app/app.py] and [rosa-supply-chain-complete/demo/app/app.py].
    Each registers three view functions ([health], [home],
    [security_info]) on the routes [/health], [/] and [/security].
    The views build a Python dict literal, two of whose values come from
    [os.getenv], and hand it to [jsonify].

    Python values are embedded as a small inductive type, the process
    environment [os.environ] as a finite map, and a view as a state
    passing computation that may raise. *)

From Stdlib Require Import String List ZArith Bool.
From stdpp Require Import base option gmap strings list.
Import ListNotations.
Local Open Scope string_scope.
Local Open Scope Z_scope.
Set Warnings "-register-all".

(** ** Python values and JSON documents *)

(** The values that occur in the dict literals of the views: [str],
    [bool], [int], [list] and [dict] with [str] keys.  [PyObject] stands
    for any other Python object (a set, bytes, a class instance), which
    [jsonify] cannot serialise; no view builds one. *)
Inductive pyval : Type :=
| PyStr (s : string)
| PyBool (b : bool)
| PyInt (n : Z)
| PyList (xs : list pyval)
| PyDict (items : list (string * pyval))
| PyObject (type_name : string).

(** A JSON document.  Object members are kept in the order of the dict
    literal they come from. *)
Inductive json : Type :=
| JStr (s : string)
| JBool (b : bool)
| JNum (n : Z)
| JArr (xs : list json)
| JObj (members : list (string * json)).

(** Outcome of a Python call: a value, or a raised exception. *)
Inductive result (A : Type) : Type :=
| Ok (a : A)
| Raise (exc : string).
Arguments Ok {A} a.
Arguments Raise {A} exc.

(** ** The process *)

(** The only global state the views touch is [os.environ].  The field
    [getenv_calls] is an instrumentation: the keys passed to
    [os.getenv] so far, oldest first.  No view reads it. *)
Record process : Type := mkProcess {
  environ : gmap string string;
  getenv_calls : list string
}.

(** A Python computation: runs in a process, returns or raises, and
    leaves a process behind. *)
Definition Py (A : Type) : Type := process -> result A * process.

Definition ret {A} (a : A) : Py A := fun p => (Ok a, p).

Definition bind {A B} (m : Py A) (k : A -> Py B) : Py B :=
  fun p =>
    match m p with
    | (Ok a, p') => k a p'
    | (Raise e, p') => (Raise e, p')
    end.

Notation "x <- m ;; k" := (bind m (fun x => k))
  (at level 100, m at next level, right associativity).

(** [os.getenv(key, default)]: the value of [key] in [os.environ], or
    [default] when the key is absent.  Never raises. *)
Definition getenv (key dflt : string) : Py string :=
  fun p =>
    (Ok (default dflt (environ p !! key)),
     mkProcess (environ p) (getenv_calls p ++ [key])).

(** ** Responses and [jsonify] *)

Inductive content : Type :=
| Json (doc : json)
| Html (page : string).

Record response : Type := mkResponse {
  status_code : Z;
  mimetype : string;
  data : content
}.

Definition result_map {A B} (f : A -> B) (r : result A) : result B :=
  match r with
  | Ok a => Ok (f a)
  | Raise e => Raise e
  end.

(** The JSON document of a Python value; [TypeError] on an object the
    encoder does not know.  Lists and dicts are walked left to right and
    the first failure propagates. *)
Fixpoint to_json (v : pyval) : result json :=
  match v with
  | PyStr s => Ok (JStr s)
  | PyBool b => Ok (JBool b)
  | PyInt n => Ok (JNum n)
  | PyList xs =>
      result_map JArr
        ((fix elems (l : list pyval) : result (list json) :=
            match l with
            | [] => Ok []
            | x :: l' =>
                match to_json x with
                | Ok j => result_map (cons j) (elems l')
                | Raise e => Raise e
                end
            end) xs)
  | PyDict items =>
      result_map JObj
        ((fix members (l : list (string * pyval)) : result (list (string * json)) :=
            match l with
            | [] => Ok []
            | (k, x) :: l' =>
                match to_json x with
                | Ok j => result_map (cons (k, j)) (members l')
                | Raise e => Raise e
                end
            end) items)
  | PyObject t =>
      Raise ("TypeError: Object of type " ++ t ++ " is not JSON serializable")
  end.

(** [flask.jsonify(obj)]: a response with status 200 and mimetype
    [application/json] whose body is the serialisation of [obj]. *)
Definition jsonify (obj : pyval) : Py response :=
  fun p =>
    match to_json obj with
    | Ok doc => (Ok (mkResponse 200 "application/json" (Json doc)), p)
    | Raise e => (Raise e, p)
    end.

(** ** Routing *)

(** The URL map built by the [@app.route] decorators: rule and view, in
    registration order. *)
Definition url_map : Type := list (string * Py response).

(** The first view whose rule is [path]. *)
Fixpoint find_view (rules : url_map) (path : string) : option (Py response) :=
  match rules with
  | [] => None
  | (rule, view) :: rules' =>
      if String.eqb rule path then Some view else find_view rules' path
  end.

(** What the application answers to [GET path]: the response of the
    matching view, 500 when the view raises, 404 when no rule matches. *)
Definition handle_get (app : url_map) (path : string) : process -> response * process :=
  fun p =>
    match find_view app path with
    | None => (mkResponse 404 "text/html" (Html "Not Found"), p)
    | Some view =>
        match view p with
        | (Ok r, p') => (r, p')
        | (Raise _, p') => (mkResponse 500 "text/html" (Html "Internal Server Error"), p')
        end
    end.

(** ** The base application, [demo/app/app.py] *)

Module Demo.

Definition health : Py response :=
  version <- getenv "APP_VERSION" "1.0.0" ;;
  signed <- getenv "IMAGE_SIGNED" "true" ;;
  jsonify (PyDict [
    ("status", PyStr "healthy");
    ("version", PyStr version);
    ("signed", PyStr signed);
    ("sbom_available", PyBool true)
  ]).

Definition home : Py response :=
  jsonify (PyDict [
    ("message", PyStr "Secure Supply Chain Demo - ROSA");
    ("security_features", PyList [
      PyStr "✅ Image Signing with Cosign";
      PyStr "✅ SBOM Generation with Syft";
      PyStr "✅ Policy Enforcement with ACS";
      PyStr "✅ Zero Trust Network Policies"
    ])
  ]).

Definition security_info : Py response :=
  jsonify (PyDict [
    ("image_signed", PyBool true);
    ("signature_verified", PyBool true);
    ("sbom_format", PyStr "SPDX");
    ("compliance", PyList [PyStr "CIS"; PyStr "PCI-DSS"; PyStr "NIST"]);
    ("zero_trust", PyBool true)
  ]).

Definition app : url_map :=
  [("/health", health); ("/", home); ("/security", security_info)].

End Demo.

(** ** The extended application,
       [rosa-supply-chain-complete/demo/app/app.py] *)

Module Complete.

Definition health : Py response :=
  version <- getenv "APP_VERSION" "1.0.0" ;;
  signed <- getenv "IMAGE_SIGNED" "true" ;;
  jsonify (PyDict [
    ("status", PyStr "healthy");
    ("version", PyStr version);
    ("signed", PyStr signed);
    ("sbom_available", PyBool true);
    ("security_verified", PyBool true)
  ]).

Definition home : Py response :=
  jsonify (PyDict [
    ("message", PyStr "Secure Supply Chain Demo - ROSA");
    ("features", PyDict [
      ("image_signing", PyStr "Cosign");
      ("sbom", PyStr "Syft (SPDX/CycloneDX)");
      ("vulnerability_scanning", PyStr "Trivy + Clair");
      ("policy_enforcement", PyStr "Red Hat ACS");
      ("sbom_analysis", PyStr "Trusted Profile Analyzer");
      ("ci_cd", PyStr "Tekton Pipelines");
      ("zero_trust", PyStr "Network Policies")
    ]);
    ("integrations", PyList [
      PyStr "Red Hat Quay";
      PyStr "Red Hat ACS";
      PyStr "Trusted Profile Analyzer";
      PyStr "OpenShift Pipelines";
      PyStr "MLflow (AI/ML)"
    ])
  ]).

Definition security_info : Py response :=
  jsonify (PyDict [
    ("image_signature", PyDict [
      ("signed", PyBool true);
      ("algorithm", PyStr "cosign");
      ("verified", PyBool true)
    ]);
    ("sbom", PyDict [
      ("format", PyStr "SPDX 2.3");
      ("attached", PyBool true);
      ("signed", PyBool true)
    ]);
    ("vulnerabilities", PyDict [
      ("scanned", PyBool true);
      ("critical", PyInt 0);
      ("high", PyInt 0);
      ("policy_compliant", PyBool true)
    ]);
    ("compliance", PyDict [
      ("standards", PyList [PyStr "CIS"; PyStr "PCI-DSS"; PyStr "NIST SP 800-53"]);
      ("status", PyStr "COMPLIANT")
    ])
  ]).

Definition app : url_map :=
  [("/health", health); ("/", home); ("/security", security_info)].

End Complete.

(** ** Both applications, and their three routes *)

Inductive variant : Type := Base | Extended.

Definition app_of (v : variant) : url_map :=
  match v with
  | Base => Demo.app
  | Extended => Complete.app
  end.

Inductive route : Type := Health | Home | Security.

Definition path_of (r : route) : string :=
  match r with
  | Health => "/health"
  | Home => "/"
  | Security => "/security"
  end.

Definition view_of (v : variant) (r : route) : Py response :=
  match v, r with
  | Base, Health => Demo.health
  | Base, Home => Demo.home
  | Base, Security => Demo.security_info
  | Extended, Health => Complete.health
  | Extended, Home => Complete.home
  | Extended, Security => Complete.security_info
  end.

(** ** Reading a response *)

Fixpoint assoc {A} (k : string) (l : list (string * A)) : option A :=
  match l with
  | [] => None
  | (k', a) :: l' => if String.eqb k' k then Some a else assoc k l'
  end.

(** Member [k] of a JSON object. *)
Definition member (k : string) (doc : json) : option json :=
  match doc with
  | JObj ms => assoc k ms
  | _ => None
  end.

Definition json_body (r : response) : option json :=
  match data r with
  | Json doc => Some doc
  | Html _ => None
  end.

(** Field [k] of the JSON object a response carries. *)
Definition field (k : string) (r : response) : option json :=
  json_body r ≫= member k.

(** The object without its members named [k]. *)
Definition remove_member (k : string) (doc : json) : json :=
  match doc with
  | JObj ms => JObj (List.filter (fun kv => negb (String.eqb (fst kv) k)) ms)
  | _ => doc
  end.

Definition remove_field (k : string) (r : response) : response :=
  match data r with
  | Json doc => mkResponse (status_code r) (mimetype r) (Json (remove_member k doc))
  | Html _ => r
  end.

(** No string occurs twice in [l]. *)
Fixpoint distinct (l : list string) : bool :=
  match l with
  | [] => true
  | k :: l' => negb (existsb (String.eqb k) l') && distinct l'
  end.

(** A document is well formed when no object in it names a member twice. *)
Fixpoint well_formed (doc : json) : bool :=
  match doc with
  | JStr _ | JBool _ | JNum _ => true
  | JArr xs => forallb well_formed xs
  | JObj ms =>
      distinct (map fst ms) && forallb (fun kv => well_formed (snd kv)) ms
  end.

(** The bytes sent for a response, given the encoder [dumps] that
    [jsonify] applies to a document. *)
Definition body_bytes (dumps : json -> string) (r : response) : string :=
  match data r with
  | Json doc => dumps doc
  | Html page => page
  end.

(** Two requests served one after the other by the same process. *)
Definition handle_twice (app : url_map) (path : string) (p : process)
  : response * response * process :=
  let '(r1, p1) := handle_get app path p in
  let '(r2, p2) := handle_get app path p1 in
  (r1, r2, p2).

(** ** What [/health] answers *)

(** The document [/health] answers with, given the two values read. *)
Definition health_doc (v : variant) (version signed : string) : json :=
  JObj ([("status", JStr "healthy");
         ("version", JStr version);
         ("signed", JStr signed);
         ("sbom_available", JBool true)]
        ++ match v with
           | Base => []
           | Extended => [("security_verified", JBool true)]
           end).

Definition app_version (p : process) : string :=
  default "1.0.0" (environ p !! "APP_VERSION").

Definition image_signed (p : process) : string :=
  default "true" (environ p !! "IMAGE_SIGNED").

(** ** Serving a session *)

(** [app.run(host='0.0.0.0', port=8080)]: the process serves the
    requests that arrive, here the paths of the [GET] requests of a
    session, one after the other; each is answered in the process the
    previous one left behind. *)
Fixpoint run_requests (app : url_map) (paths : list string) (p : process)
  : list response * process :=
  match paths with
  | [] => ([], p)
  | path :: rest =>
      let '(r, p1) := handle_get app path p in
      let '(rs, p2) := run_requests app rest p1 in
      (r :: rs, p2)
  end.

(** Whether some [@app.route] rule of the application is [path]. *)
Definition is_rule (app : url_map) (path : string) : bool :=
  existsb (fun rule => String.eqb rule path) (map fst app).

(** The [os.getenv] keys a request to [path] is expected to look up. *)
Definition lookups_of (path : string) : list string :=
  if String.eqb "/health" path then ["APP_VERSION"; "IMAGE_SIGNED"] else [].

(** * Properties *)

(** ** The model on concrete inputs *)

Example to_json_object_raises :
  to_json (PyDict [("tags", PyList [PyStr "a"; PyObject "set"])])
  = Raise "TypeError: Object of type set is not JSON serializable".
Proof. reflexivity. Qed.

Example raising_view_is_500 :
  status_code
    (fst (handle_get [("/boom", jsonify (PyObject "bytes"))] "/boom"
            (mkProcess ∅ [])))
  = 500.
Proof. reflexivity. Qed.

Example unknown_path_is_404 :
  status_code (fst (handle_get Demo.app "/metrics" (mkProcess ∅ []))) = 404.
Proof. reflexivity. Qed.

Example health_default_environ :
  Demo.health (mkProcess ∅ [])
  = (Ok (mkResponse 200 "application/json"
           (Json (JObj [("status", JStr "healthy");
                        ("version", JStr "1.0.0");
                        ("signed", JStr "true");
                        ("sbom_available", JBool true)]))),
     mkProcess ∅ ["APP_VERSION"; "IMAGE_SIGNED"]).
Proof. reflexivity. Qed.

Example health_empty_value_is_kept :
  field "signed"
    (fst (handle_get Complete.app "/health"
            (mkProcess {["IMAGE_SIGNED" := ""]} [])))
  = Some (JStr "").
Proof. reflexivity. Qed.

Example duplicate_member_is_ill_formed :
  well_formed (JObj [("a", JNum 1); ("b", JArr [JObj [("c", JBool true); ("c", JBool false)]])])
  = false.
Proof. reflexivity. Qed.

(** ** What each view computes *)

Lemma health_run (v : variant) (p : process) :
  view_of v Health p =
  (Ok (mkResponse 200 "application/json"
         (Json (health_doc v (app_version p) (image_signed p)))),
   mkProcess (environ p) ((getenv_calls p ++ ["APP_VERSION"]) ++ ["IMAGE_SIGNED"])).
Proof. destruct v; reflexivity. Qed.

Lemma static_run (v : variant) (r : route) (p q : process) :
  r <> Health ->
  view_of v r p = (fst (view_of v r q), p).
Proof. destruct v, r; intros Hr; try congruence; reflexivity. Qed.

Lemma find_view_route (v : variant) (r : route) :
  find_view (app_of v) (path_of r) = Some (view_of v r).
Proof. destruct v, r; reflexivity. Qed.

Lemma handle_get_view (v : variant) (r : route) (p : process) :
  handle_get (app_of v) (path_of r) p =
  match view_of v r p with
  | (Ok resp, p') => (resp, p')
  | (Raise _, p') =>
      (mkResponse 500 "text/html" (Html "Internal Server Error"), p')
  end.
Proof. unfold handle_get. rewrite find_view_route. reflexivity. Qed.

Lemma health_get (v : variant) (p : process) :
  handle_get (app_of v) "/health" p =
  (mkResponse 200 "application/json"
     (Json (health_doc v (app_version p) (image_signed p))),
   mkProcess (environ p) ((getenv_calls p ++ ["APP_VERSION"]) ++ ["IMAGE_SIGNED"])).
Proof.
  change "/health" with (path_of Health).
  rewrite handle_get_view, health_run. reflexivity.
Qed.

Lemma static_get (v : variant) (r : route) (p q : process) :
  r <> Health ->
  handle_get (app_of v) (path_of r) p =
  (fst (handle_get (app_of v) (path_of r) q), p).
Proof.
  intros Hr. rewrite !handle_get_view.
  rewrite (static_run v r p q Hr).
  destruct (view_of v r q) as [[resp | e] q']; reflexivity.
Qed.

Lemma app_version_set (env : gmap string string) (log : list string) (s : string) :
  app_version (mkProcess (<["APP_VERSION" := s]> env) log) = s.
Proof. unfold app_version. simpl. rewrite lookup_insert_eq. reflexivity. Qed.

Lemma app_version_unset (env : gmap string string) (log : list string) :
  app_version (mkProcess (delete "APP_VERSION" env) log) = "1.0.0".
Proof. unfold app_version. simpl. rewrite lookup_delete_eq. reflexivity. Qed.

Lemma image_signed_set (env : gmap string string) (log : list string) (s : string) :
  image_signed (mkProcess (<["IMAGE_SIGNED" := s]> env) log) = s.
Proof. unfold image_signed. simpl. rewrite lookup_insert_eq. reflexivity. Qed.

Lemma image_signed_unset (env : gmap string string) (log : list string) :
  image_signed (mkProcess (delete "IMAGE_SIGNED" env) log) = "true".
Proof. unfold image_signed. simpl. rewrite lookup_delete_eq. reflexivity. Qed.

(** ** The claims *)

(** C1. Every [GET /health] is answered, in both variants, by the view
    returning normally with HTTP 200, [status] equal to ["healthy"] and
    [sbom_available] equal to [true]; the extended variant also carries
    [security_verified] equal to [true], the base variant has no such
    field. *)
Theorem health_status_ok (v : variant) (p : process) :
  let r := fst (handle_get (app_of v) "/health" p) in
  fst (view_of v Health p) = Ok r /\
  status_code r = 200 /\
  field "status" r = Some (JStr "healthy") /\
  field "sbom_available" r = Some (JBool true) /\
  field "security_verified" r =
    match v with
    | Base => None
    | Extended => Some (JBool true)
    end.
Proof.
  rewrite health_get, health_run. cbn [fst].
  destruct v; repeat split; reflexivity.
Qed.

(** C2. With [APP_VERSION] set to ["2.3.1"] in the environment the
    [version] field of [/health] is ["2.3.1"]; with [APP_VERSION] unset
    it is ["1.0.0"].  The variable is looked up while the request is
    handled, exactly once: the request adds one [APP_VERSION] and one
    [IMAGE_SIGNED] lookup to the calls made so far, so a value set after
    an earlier request is the one the next request reports. *)
Theorem health_version (v : variant) (env : gmap string string) (log : list string) :
  field "version"
    (fst (handle_get (app_of v) "/health"
            (mkProcess (<["APP_VERSION" := "2.3.1"]> env) log)))
    = Some (JStr "2.3.1") /\
  field "version"
    (fst (handle_get (app_of v) "/health"
            (mkProcess (delete "APP_VERSION" env) log)))
    = Some (JStr "1.0.0") /\
  getenv_calls (snd (handle_get (app_of v) "/health" (mkProcess env log)))
    = (log ++ ["APP_VERSION"; "IMAGE_SIGNED"])%list /\
  (let p1 := snd (handle_get (app_of v) "/health" (mkProcess env log)) in
   field "version"
     (fst (handle_get (app_of v) "/health"
             (mkProcess (<["APP_VERSION" := "2.3.1"]> (environ p1)) (getenv_calls p1))))
     = Some (JStr "2.3.1")).
Proof.
  cbv zeta. rewrite (health_get v (mkProcess env log)).
  cbn [fst snd getenv_calls environ].
  rewrite !health_get, !app_version_set, app_version_unset. cbn [fst].
  rewrite <- app_assoc.
  destruct v; repeat split; reflexivity.
Qed.

(** C3. With [IMAGE_SIGNED] set to ["false"] the [signed] field of
    [/health] is the JSON string ["false"], which is not the JSON
    boolean [false]; with [IMAGE_SIGNED] unset it is the string
    ["true"]. *)
Theorem health_signed (v : variant) (env : gmap string string) (log : list string) :
  field "signed"
    (fst (handle_get (app_of v) "/health"
            (mkProcess (<["IMAGE_SIGNED" := "false"]> env) log)))
    = Some (JStr "false") /\
  field "signed"
    (fst (handle_get (app_of v) "/health"
            (mkProcess (<["IMAGE_SIGNED" := "false"]> env) log)))
    <> Some (JBool false) /\
  field "signed"
    (fst (handle_get (app_of v) "/health"
            (mkProcess (delete "IMAGE_SIGNED" env) log)))
    = Some (JStr "true").
Proof.
  rewrite !health_get, !image_signed_set, image_signed_unset. cbn [fst].
  destruct v; repeat split; try reflexivity; discriminate.
Qed.

(** C4. Every [GET /security] is answered with HTTP 200.  In the base
    variant the [compliance] field is a list containing ["CIS"],
    ["PCI-DSS"] and ["NIST"]; in the extended variant the [standards]
    member of the [compliance] object is a list containing ["CIS"],
    ["PCI-DSS"] and ["NIST SP 800-53"]. *)
Theorem security_compliance (p : process) :
  (let r := fst (handle_get Demo.app "/security" p) in
   status_code r = 200 /\
   exists l, field "compliance" r = Some (JArr l) /\
     In (JStr "CIS") l /\ In (JStr "PCI-DSS") l /\ In (JStr "NIST") l) /\
  (let r := fst (handle_get Complete.app "/security" p) in
   status_code r = 200 /\
   exists l, field "compliance" r ≫= member "standards" = Some (JArr l) /\
     In (JStr "CIS") l /\ In (JStr "PCI-DSS") l /\ In (JStr "NIST SP 800-53") l).
Proof.
  split; cbv zeta; (split; [reflexivity |]).
  - exists [JStr "CIS"; JStr "PCI-DSS"; JStr "NIST"].
    split; [reflexivity | simpl; tauto].
  - exists [JStr "CIS"; JStr "PCI-DSS"; JStr "NIST SP 800-53"].
    split; [reflexivity | simpl; tauto].
Qed.

(** C5. For each of the three routes, in either variant and any
    process: two identical requests served one after the other get the
    same response, hence the same bytes under the encoder in use, and
    leave [os.environ] as it was; and the response is a function of
    [os.environ] alone, whatever else the process has recorded. *)
Theorem repeated_request_same_response
    (dumps : json -> string) (v : variant) (r : route)
    (env : gmap string string) (log log' : list string) :
  (let '(r1, r2, p2) := handle_twice (app_of v) (path_of r) (mkProcess env log) in
   r1 = r2 /\
   body_bytes dumps r1 = body_bytes dumps r2 /\
   environ p2 = env) /\
  environ (snd (handle_get (app_of v) (path_of r) (mkProcess env log))) = env /\
  fst (handle_get (app_of v) (path_of r) (mkProcess env log))
    = fst (handle_get (app_of v) (path_of r) (mkProcess env log')).
Proof.
  unfold handle_twice.
  destruct r.
  - cbn [path_of]. rewrite !health_get. repeat split; reflexivity.
  - assert (Hr : Home <> Health) by discriminate.
    rewrite (static_get v Home (mkProcess env log) (mkProcess env log') Hr).
    rewrite (static_get v Home (mkProcess env log) (mkProcess env log') Hr).
    repeat split; reflexivity.
  - assert (Hr : Security <> Health) by discriminate.
    rewrite (static_get v Security (mkProcess env log) (mkProcess env log') Hr).
    rewrite (static_get v Security (mkProcess env log) (mkProcess env log') Hr).
    repeat split; reflexivity.
Qed.

(** C6. No request to one of the three routes ends in an error: in
    either variant and any process the view returns normally, the
    application answers with that response, its status is 200 and its
    body is a well-formed JSON document. *)
Theorem no_error_path (v : variant) (r : route) (p : process) :
  exists (resp : response) (doc : json),
    fst (view_of v r p) = Ok resp /\
    fst (handle_get (app_of v) (path_of r) p) = resp /\
    status_code resp = 200 /\
    data resp = Json doc /\
    well_formed doc = true.
Proof.
  rewrite handle_get_view.
  destruct r.
  - rewrite health_run. cbn [fst]. do 2 eexists.
    repeat split; destruct v; reflexivity.
  - destruct v; do 2 eexists; repeat split; reflexivity.
  - destruct v; do 2 eexists; repeat split; reflexivity.
Qed.

(** C7. Every [GET /] is answered with HTTP 200 and a [message] field
    equal to ["Secure Supply Chain Demo - ROSA"].  The base variant adds
    a flat list of strings, [security_features]; the extended variant
    adds an object [features] and a list of strings [integrations]. *)
Theorem home_message (p : process) :
  (let r := fst (handle_get Demo.app "/" p) in
   status_code r = 200 /\
   field "message" r = Some (JStr "Secure Supply Chain Demo - ROSA") /\
   (exists l, field "security_features" r = Some (JArr (map JStr l))) /\
   field "features" r = None /\
   field "integrations" r = None) /\
  (let r := fst (handle_get Complete.app "/" p) in
   status_code r = 200 /\
   field "message" r = Some (JStr "Secure Supply Chain Demo - ROSA") /\
   (exists ms, field "features" r = Some (JObj ms)) /\
   (exists l, field "integrations" r = Some (JArr (map JStr l))) /\
   field "security_features" r = None).
Proof.
  split; cbv zeta.
  - repeat split; try reflexivity.
    exists ["✅ Image Signing with Cosign"; "✅ SBOM Generation with Syft";
            "✅ Policy Enforcement with ACS"; "✅ Zero Trust Network Policies"].
    reflexivity.
  - repeat split; try reflexivity.
    + eexists. reflexivity.
    + exists ["Red Hat Quay"; "Red Hat ACS"; "Trusted Profile Analyzer";
              "OpenShift Pipelines"; "MLflow (AI/ML)"].
      reflexivity.
Qed.

(** C8. Whatever string [IMAGE_SIGNED] is set to, [/health] reports it
    unchanged in [signed]. *)
Theorem health_signed_verbatim
    (v : variant) (s : string) (env : gmap string string) (log : list string) :
  field "signed"
    (fst (handle_get (app_of v) "/health"
            (mkProcess (<["IMAGE_SIGNED" := s]> env) log)))
    = Some (JStr s).
Proof.
  rewrite health_get, image_signed_set. destruct v; reflexivity.
Qed.

(** C9. In either variant the responses to [GET /] and [GET /security]
    are the same in any two processes, so they do not depend on the
    environment; the response to [GET /health] does depend on it. *)
Theorem static_routes_ignore_environ (v : variant) :
  (forall p q : process,
     fst (handle_get (app_of v) "/" p) = fst (handle_get (app_of v) "/" q)) /\
  (forall p q : process,
     fst (handle_get (app_of v) "/security" p)
       = fst (handle_get (app_of v) "/security" q)) /\
  (exists p q : process,
     fst (handle_get (app_of v) "/health" p)
       <> fst (handle_get (app_of v) "/health" q)).
Proof.
  split; [| split].
  - intros p q. destruct v; reflexivity.
  - intros p q. destruct v; reflexivity.
  - exists (mkProcess ∅ []), (mkProcess (<["APP_VERSION" := "2.3.1"]> ∅) []).
    rewrite !health_get, app_version_set. cbn [fst].
    destruct v; intros H; inversion H.
Qed.

(** C10. In any process, the base variant's answer to [GET /health] is
    the extended variant's answer with the [security_verified] field
    removed, and the two agree on [status], [version], [signed] and
    [sbom_available]. *)
Theorem health_base_is_extended_minus_verified (p : process) :
  let b := fst (handle_get Demo.app "/health" p) in
  let e := fst (handle_get Complete.app "/health" p) in
  b = remove_field "security_verified" e /\
  field "status" b = field "status" e /\
  field "version" b = field "version" e /\
  field "signed" b = field "signed" e /\
  field "sbom_available" b = field "sbom_available" e.
Proof.
  cbv zeta.
  change Demo.app with (app_of Base).
  change Complete.app with (app_of Extended).
  rewrite !health_get. cbn [fst].
  repeat split; reflexivity.
Qed.

(** ** Beyond the three routes: any path, any session *)

Lemma find_view_other (v : variant) (path : string) :
  "/health" <> path -> "/" <> path -> "/security" <> path ->
  find_view (app_of v) path = None.
Proof.
  intros H1 H2 H3.
  apply String.eqb_neq in H1, H2, H3.
  destruct v; cbn [app_of Demo.app Complete.app find_view];
    rewrite H1, H2, H3; reflexivity.
Qed.

Lemma is_rule_other (v : variant) (path : string) :
  "/health" <> path -> "/" <> path -> "/security" <> path ->
  is_rule (app_of v) path = false.
Proof.
  intros H1 H2 H3.
  apply String.eqb_neq in H1, H2, H3.
  destruct v; unfold is_rule; cbn [app_of Demo.app Complete.app map fst existsb];
    rewrite H1, H2, H3; reflexivity.
Qed.

(** One request, whatever its path: the response is fixed by
    [os.environ], its status by the URL map, and the process is left
    with the same environment and the lookups of that path recorded. *)
Lemma handle_get_summary (v : variant) (path : string) (p : process) :
  exists resp : response,
    handle_get (app_of v) path p
      = (resp, mkProcess (environ p) (getenv_calls p ++ lookups_of path)) /\
    status_code resp = (if is_rule (app_of v) path then 200 else 404) /\
    forall q : process,
      environ q = environ p -> fst (handle_get (app_of v) path q) = resp.
Proof.
  destruct (String.eqb_spec "/health" path) as [<- | Hh].
  { eexists. rewrite health_get. split; [| split].
    - rewrite <- app_assoc. reflexivity.
    - destruct v; reflexivity.
    - intros q Hq. rewrite health_get. cbn [fst].
      unfold app_version, image_signed. rewrite Hq. reflexivity. }
  destruct (String.eqb_spec "/" path) as [<- | Hr].
  { destruct p as [env log]. destruct v; eexists; (split; [| split]).
    all: try (cbn; rewrite app_nil_r; reflexivity).
    all: try reflexivity.
    all: intros q _; reflexivity. }
  destruct (String.eqb_spec "/security" path) as [<- | Hs].
  { destruct p as [env log]. destruct v; eexists; (split; [| split]).
    all: try (cbn; rewrite app_nil_r; reflexivity).
    all: try reflexivity.
    all: intros q _; reflexivity. }
  exists (mkResponse 404 "text/html" (Html "Not Found")).
  unfold handle_get. rewrite find_view_other, is_rule_other by assumption.
  unfold lookups_of. apply String.eqb_neq in Hh. rewrite Hh.
  destruct p as [env log]. cbn [environ getenv_calls]. rewrite app_nil_r.
  repeat split.
Qed.

Lemma handle_get_ext (v : variant) (path : string) (p q : process) :
  environ q = environ p ->
  fst (handle_get (app_of v) path q) = fst (handle_get (app_of v) path p).
Proof.
  intros Hq.
  destruct (handle_get_summary v path p) as (resp & _ & _ & Hext).
  rewrite (Hext q Hq), (Hext p eq_refl). reflexivity.
Qed.

Lemma run_requests_summary (v : variant) (paths : list string) (p : process) :
  run_requests (app_of v) paths p =
  (map (fun path => fst (handle_get (app_of v) path p)) paths,
   mkProcess (environ p) (getenv_calls p ++ concat (map lookups_of paths))).
Proof.
  revert p. induction paths as [| path rest IH]; intros p.
  - destruct p as [env log]. cbn. rewrite app_nil_r. reflexivity.
  - cbn [run_requests map concat].
    destruct (handle_get_summary v path p) as (resp & Hrun & _ & _).
    rewrite Hrun, IH. cbn [fst environ getenv_calls].
    rewrite <- app_assoc. f_equal. f_equal.
    apply map_ext. intros path'. apply handle_get_ext. reflexivity.
Qed.

(** X1. What [/health] answers depends on the environment through
    [APP_VERSION] and [IMAGE_SIGNED] only: two processes whose
    environments agree on these two variables get the same response,
    whatever else their environments hold. *)
Theorem health_reads_two_variables_only (v : variant) (p q : process) :
  environ p !! "APP_VERSION" = environ q !! "APP_VERSION" ->
  environ p !! "IMAGE_SIGNED" = environ q !! "IMAGE_SIGNED" ->
  fst (handle_get (app_of v) "/health" p) = fst (handle_get (app_of v) "/health" q).
Proof.
  intros Hv Hs. rewrite !health_get. cbn [fst].
  unfold app_version, image_signed. rewrite Hv, Hs. reflexivity.
Qed.

Lemma health_reads_two_variables_only_witness :
  fst (handle_get (app_of Extended) "/health"
         (mkProcess (<["AWS_SECRET_ACCESS_KEY" := "hunter2"]> {["APP_VERSION" := "2.3.1"]}) []))
  = fst (handle_get (app_of Extended) "/health"
           (mkProcess {["APP_VERSION" := "2.3.1"]} ["PATH"])).
Proof.
  apply health_reads_two_variables_only; vm_compute; reflexivity.
Defined.

(** X2. Every field of the [/health] response other than [version] and
    [signed] is the same in any two processes: the environment cannot
    change [status], [sbom_available] or [security_verified], nor add a
    field. *)
Theorem health_other_fields_fixed (v : variant) (k : string) (p q : process) :
  k <> "version" ->
  k <> "signed" ->
  field k (fst (handle_get (app_of v) "/health" p))
    = field k (fst (handle_get (app_of v) "/health" q)).
Proof.
  intros Hv Hs. rewrite !health_get. cbn [fst].
  assert (Ev : String.eqb "version" k = false)
    by (apply String.eqb_neq; congruence).
  assert (Es : String.eqb "signed" k = false)
    by (apply String.eqb_neq; congruence).
  unfold field, json_body, health_doc. cbn [data mbind option_bind member].
  destruct v; cbn [app assoc]; rewrite Ev, Es; reflexivity.
Qed.

Lemma health_other_fields_fixed_witness :
  field "status"
    (fst (handle_get (app_of Base) "/health"
            (mkProcess {["IMAGE_SIGNED" := "false"]} [])))
  = field "status" (fst (handle_get (app_of Base) "/health" (mkProcess ∅ []))).
Proof.
  apply health_other_fields_fixed; discriminate.
Defined.

(** X3. [version] is the value of [APP_VERSION] unchanged, for every
    string, and the two variables do not interfere: with both set, in
    either order, [version] reports the one and [signed] the other. *)
Theorem health_variables_do_not_interfere
    (v : variant) (s t : string) (env : gmap string string) (log : list string) :
  let r1 := fst (handle_get (app_of v) "/health"
                   (mkProcess (<["IMAGE_SIGNED" := t]> (<["APP_VERSION" := s]> env)) log)) in
  let r2 := fst (handle_get (app_of v) "/health"
                   (mkProcess (<["APP_VERSION" := s]> (<["IMAGE_SIGNED" := t]> env)) log)) in
  field "version" (fst (handle_get (app_of v) "/health"
                          (mkProcess (<["APP_VERSION" := s]> env) log)))
    = Some (JStr s) /\
  field "version" r1 = Some (JStr s) /\ field "signed" r1 = Some (JStr t) /\
  field "version" r2 = Some (JStr s) /\ field "signed" r2 = Some (JStr t).
Proof.
  cbv zeta. rewrite !health_get. cbn [fst].
  unfold app_version, image_signed. cbn [environ].
  repeat (rewrite lookup_insert_eq || rewrite lookup_insert_ne by discriminate).
  destruct v; repeat split; reflexivity.
Qed.




(** X6. In a session of any length and any mix of paths, each request
    gets the response it would get if it were the only request made to
    the initial process, there are as many responses as requests, and
    the environment at the end is the one at the start. *)
Theorem session_requests_are_independent
    (v : variant) (paths : list string) (p : process) :
  fst (run_requests (app_of v) paths p)
    = map (fun path => fst (handle_get (app_of v) path p)) paths /\
  length (fst (run_requests (app_of v) paths p)) = length paths /\
  environ (snd (run_requests (app_of v) paths p)) = environ p.
Proof.
  rewrite run_requests_summary. cbn [fst snd environ].
  rewrite length_map. repeat split.
Qed.

